(** * Student API (app.py): a shallow embedding of the Flask handlers

    The service keeps one module-level dictionary [students] from integer
    ids to student records and exposes handlers that read and mutate it.
    Each handler is embedded as a function from the store before the
    request (and the request's parameters) to the store after it and the
    HTTP response. [abort(c)] ends the handler with status [c]; an
    exception that escapes a handler is answered by Flask with status 500. *)

From stdpp Require Import gmap strings list fin_maps sorting.

Set Warnings "-register-all".

Local Open Scope string_scope.
Local Open Scope Z_scope.

(** ** Values *)

(** The Python values that a parsed JSON body is made of. [JNull] is
    Python's [None]; a dictionary is keyed by strings. A number that is
    not an [int] is a finite float [JFloat m e], standing for [m * 2^e]. *)
Inductive json : Type :=
  | JNull
  | JBool (b : bool)
  | JInt (n : Z)
  | JFloat (m e : Z)
  | JStr (s : string)
  | JList (l : list json)
  | JDict (d : gmap string json).

(** Python truthiness, as tested by [not request.json]. *)
Definition truthy (j : json) : bool :=
  match j with
  | JNull => false
  | JBool b => b
  | JInt n => negb (n =? 0)
  | JFloat m _ => negb (m =? 0)
  | JStr s => negb (String.eqb s "")
  | JList l => match l with [] => false | _ :: _ => true end
  | JDict d => negb (size d =? 0)%nat
  end.

(** [sub in s] on strings: [sub] occurs in [s] as a substring. *)
Fixpoint substring_of (sub s : string) : bool :=
  String.prefix sub s ||
  match s with
  | EmptyString => false
  | String _ s' => substring_of sub s'
  end.

(** What the client sent: no JSON body at all, or a JSON document. *)
Inductive payload : Type :=
  | NoJson
  | Json (j : json).

(** [request.json]: the parsed document, and [None] when the request
    carries no JSON body. This is the behaviour of Flask's [request.json]
    that the handlers' checks [not request.json] and their comments
    ("missing or not in JSON format") are written against. *)
Definition request_json (p : payload) : json :=
  match p with
  | NoJson => JNull
  | Json j => j
  end.

(** A student record: the dictionary with the keys ['ID'], ['Name'],
    ['Grade'] and ['Email'] that [create_student] builds. The last three
    hold whatever values the request supplied. *)
Record student : Type := Student {
  ID : Z;
  Name : json;
  Grade : json;
  Email : json
}.

(** ** Responses *)

Inductive body : Type :=
  | Empty                    (* [''] *)
  | StudentJson (st : student) (* [jsonify(student)] *)
  | ErrorPage.               (* the framework's error page *)

Record response : Type := Response {
  status : Z;
  content : body
}.

Definition abort (code : Z) : response := Response code ErrorPage.

(** An uncaught [TypeError] or [AttributeError]. *)
Definition internal_error : response := Response 500 ErrorPage.

(** ** Handlers *)

Module App.

(** [max(students.keys(), default=0)] *)
Definition max_default (keys : list Z) (default : Z) : Z :=
  match keys with
  | [] => default
  | k :: ks => foldl Z.max k ks
  end.

Definition keys (students : gmap Z student) : list Z :=
  elements (dom students).

(** [get_student] *)
Definition get_student (students : gmap Z student) (student_id : Z) : response :=
  match students !! student_id with
  | None => abort 404
  | Some st => Response 200 (StudentJson st)
  end.

(** ['Name' not in request.json], for a truthy [request.json]: [None] when
    the operand does not support [in] (a [TypeError]). *)
Definition contains_Name (j : json) : option bool :=
  match j with
  | JDict d => Some (bool_decide (is_Some (d !! "Name")))
  | JList l =>
      Some (existsb (fun x => match x with
                              | JStr s => String.eqb s "Name"
                              | _ => false
                              end) l)
  | JStr s => Some (substring_of "Name" s)
  | _ => None
  end.

(** [d.get(key, default)] *)
Definition dict_get (d : gmap string json) (key : string) (default : json) : json :=
  match d !! key with
  | Some v => v
  | None => default
  end.

(** [create_student] *)
Definition create_student (students : gmap Z student) (rjson : json)
  : gmap Z student * response :=
  if negb (truthy rjson) then (students, abort 400) else
  match contains_Name rjson with
  | None => (students, internal_error)
  | Some false => (students, abort 400)
  | Some true =>
      let new_id := max_default (keys students) 0 + 1 in
      match rjson with
      | JDict d =>
          match d !! "Name" with
          | Some name =>
              let new_student :=
                {| ID := new_id;
                   Name := name;
                   Grade := dict_get d "Grade" (JStr "N/A");
                   Email := dict_get d "Email" (JStr "") |} in
              (<[new_id := new_student]> students,
               Response 201 (StudentJson new_student))
          | None => (students, internal_error)
          end
      | _ => (students, internal_error)   (* [request.json['Name']] raises *)
      end
  end.

(** [update_student] *)
Definition update_student (students : gmap Z student) (student_id : Z)
    (rjson : json) : gmap Z student * response :=
  match students !! student_id with
  | None => (students, abort 404)
  | Some st =>
      if negb (truthy rjson) then (students, abort 400) else
      match rjson with
      | JDict d =>
          let st' :=
            {| ID := ID st;
               Name := dict_get d "Name" (Name st);
               Grade := dict_get d "Grade" (Grade st);
               Email := dict_get d "Email" (Email st) |} in
          (<[student_id := st']> students, Response 200 (StudentJson st'))
      | _ => (students, internal_error)   (* [request.json.get] raises *)
      end
  end.

(** [delete_student] *)
Definition delete_student (students : gmap Z student) (student_id : Z)
  : gmap Z student * response :=
  if bool_decide (is_Some (students !! student_id))
  then (delete student_id students, Response 204 Empty)
  else (students, abort 404).

End App.

(** ** Requests and the service as a transition system *)

Inductive request : Type :=
  | GET_student (student_id : Z)
  | POST_students (p : payload)
  | PUT_student (student_id : Z) (p : payload)
  | DELETE_student (student_id : Z).

(** Routing: one request against the store. *)
Definition handle (students : gmap Z student) (r : request)
  : gmap Z student * response :=
  match r with
  | GET_student student_id => (students, App.get_student students student_id)
  | POST_students p => App.create_student students (request_json p)
  | PUT_student student_id p => App.update_student students student_id (request_json p)
  | DELETE_student student_id => App.delete_student students student_id
  end.

(** A session: requests served one after the other; the responses are
    collected in order. *)
Fixpoint run (students : gmap Z student) (rs : list request)
  : gmap Z student * list response :=
  match rs with
  | [] => (students, [])
  | r :: rs' =>
      let '(students', resp) := handle students r in
      let '(final, resps) := run students' rs' in
      (final, resp :: resps)
  end.

(** The stores the service can be in: the module starts with [students = {}]. *)
Inductive reachable : gmap Z student → Prop :=
  | reachable_init : reachable ∅
  | reachable_step students r :
      reachable students → reachable (handle students r).1.

(** Every stored record carries the key it is stored under. *)
Definition keyed_by_ID (students : gmap Z student) : Prop :=
  ∀ k st, students !! k = Some st → ID st = k.

(** The number of POST requests of a session. *)
Fixpoint posts (rs : list request) : Z :=
  match rs with
  | [] => 0
  | POST_students _ :: rs' => 1 + posts rs'
  | _ :: rs' => posts rs'
  end.

(** Keys between [1] and [n]. *)
Definition keys_within (students : gmap Z student) (n : Z) : Prop :=
  ∀ k, is_Some (students !! k) → 1 ≤ k ≤ n.

(** ** The dictionary with its insertion order *)

(** [GET /students] lists [students.values()], and a Python [dict] iterates
    in insertion order. To model the listing, the dictionary is kept as the
    list of its items, oldest first; no key occurs twice in it. *)
Module Dict.

(** [d.get(k)] *)
Fixpoint get (items : list (Z * student)) (k : Z) : option student :=
  match items with
  | [] => None
  | (k', v') :: rest => if bool_decide (k' = k) then Some v' else get rest k
  end.

(** [d[k] = v]: a key already present keeps its place, a new key goes to
    the end. *)
Fixpoint set (items : list (Z * student)) (k : Z) (v : student)
  : list (Z * student) :=
  match items with
  | [] => [(k, v)]
  | (k', v') :: rest =>
      if bool_decide (k' = k) then (k, v) :: rest else (k', v') :: set rest k v
  end.

(** [del d[k]] *)
Fixpoint del (items : list (Z * student)) (k : Z) : list (Z * student) :=
  match items with
  | [] => []
  | (k', v') :: rest =>
      if bool_decide (k' = k) then rest else (k', v') :: del rest k
  end.

(** [d.keys()] and [d.values()] *)
Definition keys (items : list (Z * student)) : list Z := items.*1.
Definition values (items : list (Z * student)) : list student := items.*2.

End Dict.

(** The handlers again, on the dictionary with its order. *)
Module OrderedApp.

(** [get_students]: the body [jsonify(list(students.values()))] and the
    status. *)
Definition get_students (students : list (Z * student)) : list student * Z :=
  (Dict.values students, 200).

(** [get_student] *)
Definition get_student (students : list (Z * student)) (student_id : Z) : response :=
  match Dict.get students student_id with
  | None => abort 404
  | Some st => Response 200 (StudentJson st)
  end.

(** [create_student] *)
Definition create_student (students : list (Z * student)) (rjson : json)
  : list (Z * student) * response :=
  if negb (truthy rjson) then (students, abort 400) else
  match App.contains_Name rjson with
  | None => (students, internal_error)
  | Some false => (students, abort 400)
  | Some true =>
      let new_id := App.max_default (Dict.keys students) 0 + 1 in
      match rjson with
      | JDict d =>
          match d !! "Name" with
          | Some name =>
              let new_student :=
                {| ID := new_id;
                   Name := name;
                   Grade := App.dict_get d "Grade" (JStr "N/A");
                   Email := App.dict_get d "Email" (JStr "") |} in
              (Dict.set students new_id new_student,
               Response 201 (StudentJson new_student))
          | None => (students, internal_error)
          end
      | _ => (students, internal_error)
      end
  end.

(** [update_student] *)
Definition update_student (students : list (Z * student)) (student_id : Z)
    (rjson : json) : list (Z * student) * response :=
  match Dict.get students student_id with
  | None => (students, abort 404)
  | Some st =>
      if negb (truthy rjson) then (students, abort 400) else
      match rjson with
      | JDict d =>
          let st' :=
            {| ID := ID st;
               Name := App.dict_get d "Name" (Name st);
               Grade := App.dict_get d "Grade" (Grade st);
               Email := App.dict_get d "Email" (Email st) |} in
          (Dict.set students student_id st', Response 200 (StudentJson st'))
      | _ => (students, internal_error)
      end
  end.

(** [delete_student] *)
Definition delete_student (students : list (Z * student)) (student_id : Z)
  : list (Z * student) * response :=
  if bool_decide (student_id ∈ Dict.keys students)
  then (Dict.del students student_id, Response 204 Empty)
  else (students, abort 404).

(** Routing. *)
Definition handle (students : list (Z * student)) (r : request)
  : list (Z * student) * response :=
  match r with
  | GET_student student_id => (students, get_student students student_id)
  | POST_students p => create_student students (request_json p)
  | PUT_student student_id p => update_student students student_id (request_json p)
  | DELETE_student student_id => delete_student students student_id
  end.

(** The dictionaries the service can hold, starting from [{}]. *)
Inductive reachable : list (Z * student) → Prop :=
  | reachable_init : reachable []
  | reachable_step students r :
      reachable students → reachable (handle students r).1.

End OrderedApp.

(** The mapping a dictionary stands for, forgetting the order. *)
Definition mapping (items : list (Z * student)) : gmap Z student :=
  list_to_map items.

(** The items of the dictionary are in strictly increasing key order and
    every record carries its key. *)
Definition listed_by_ID (items : list (Z * student)) : Prop :=
  StronglySorted Z.lt (Dict.keys items) ∧ Forall (λ kv, ID kv.2 = kv.1) items.

(** ** Sample data *)

Module Sample.

Definition alice_body : json := JDict {[ "Name" := JStr "Alice" ]}.
Definition bob_body : json :=
  JDict (<["Name" := JStr "Bob"]> {[ "Grade" := JStr "B" ]}).
Definition carl_body : json := JDict {[ "Name" := JStr "Carl" ]}.

Definition alice : student := Student 1 (JStr "Alice") (JStr "N/A") (JStr "").
Definition bob : student := Student 2 (JStr "Bob") (JStr "B") (JStr "").

(** [{1: alice, 2: bob}] *)
Definition two_students : gmap Z student := <[2 := bob]> (<[1 := alice]> ∅).

(** POST Alice, POST Bob, DELETE /students/1, POST Carl. *)
Definition scenario : list request :=
  [ POST_students (Json alice_body);
    POST_students (Json bob_body);
    DELETE_student 1;
    POST_students (Json carl_body) ].

End Sample.

(** ** The largest key *)

Section MaxKey.

Lemma foldl_max_init_le (ks : list Z) (k : Z) : k ≤ foldl Z.max k ks.
Proof.
  revert k. induction ks as [|x ks IH]; intros k; simpl; [lia|].
  specialize (IH (Z.max k x)). lia.
Qed.

Lemma foldl_max_elem_le (ks : list Z) (k x : Z) :
  x ∈ ks → x ≤ foldl Z.max k ks.
Proof.
  revert k. induction ks as [|y ks IH]; intros k Hin.
  - by apply elem_of_nil in Hin.
  - apply elem_of_cons in Hin as [->|Hin]; simpl.
    + pose proof (foldl_max_init_le ks (Z.max k y)). lia.
    + by apply IH.
Qed.

Lemma foldl_max_attained (ks : list Z) (k : Z) :
  foldl Z.max k ks = k ∨ foldl Z.max k ks ∈ ks.
Proof.
  revert k. induction ks as [|y ks IH]; intros k; simpl; [by left|].
  destruct (IH (Z.max k y)) as [H|H].
  - rewrite H. destruct (Z.max_spec k y) as [[_ ->]|[_ ->]].
    + right. by left.
    + by left.
  - right. by right.
Qed.

Lemma max_default_ub (l : list Z) (d x : Z) : x ∈ l → x ≤ App.max_default l d.
Proof.
  destruct l as [|k ks]; intros Hin; simpl.
  - by apply elem_of_nil in Hin.
  - apply elem_of_cons in Hin as [->|Hin].
    + apply foldl_max_init_le.
    + by apply foldl_max_elem_le.
Qed.

Lemma max_default_attained (l : list Z) (d : Z) :
  l ≠ [] → App.max_default l d ∈ l.
Proof.
  destruct l as [|k ks]; intros Hne; [done|]. simpl.
  destruct (foldl_max_attained ks k) as [->|H]; [by left | by right].
Qed.

Lemma elem_of_keys (students : gmap Z student) (k : Z) :
  k ∈ App.keys students ↔ is_Some (students !! k).
Proof. unfold App.keys. by rewrite elem_of_elements, elem_of_dom. Qed.

Lemma keys_empty : App.keys ∅ = [].
Proof. unfold App.keys. by rewrite dom_empty_L, elements_empty. Qed.

Lemma keys_nil_inv (students : gmap Z student) :
  App.keys students = [] → students = ∅.
Proof.
  intros H. apply map_eq. intros k. rewrite lookup_empty.
  apply eq_None_not_Some. rewrite <- elem_of_keys, H. apply not_elem_of_nil.
Qed.

(** [max(students.keys(), default=0)] is [0] on the empty store. *)
Lemma max_key_empty : App.max_default (App.keys ∅) 0 = 0.
Proof. by rewrite keys_empty. Qed.

(** It bounds every key present. *)
Lemma max_key_ub (students : gmap Z student) (k : Z) :
  is_Some (students !! k) → k ≤ App.max_default (App.keys students) 0.
Proof. intros H. by apply max_default_ub, elem_of_keys. Qed.

(** On a store that is not empty it is one of the keys. *)
Lemma max_key_present (students : gmap Z student) :
  students ≠ ∅ → is_Some (students !! App.max_default (App.keys students) 0).
Proof.
  intros Hne. apply elem_of_keys, max_default_attained.
  intros H. by apply Hne, keys_nil_inv.
Qed.

End MaxKey.

(** ** Equations of the handlers *)

Section HandlerEquations.

Implicit Types (students : gmap Z student) (d : gmap string json).

(** A dictionary holding a key is not empty, hence truthy. *)
Lemma truthy_dict_lookup d key v : d !! key = Some v → truthy (JDict d) = true.
Proof.
  intros Hv. simpl. apply negb_true_iff, Nat.eqb_neq. intros Hsize.
  apply map_size_empty_inv in Hsize. subst d. by rewrite lookup_empty in Hv.
Qed.

Lemma truthy_empty_dict : truthy (JDict ∅) = false.
Proof. reflexivity. Qed.

(** The path of [create_student] for a dictionary that has ['Name']. *)
Lemma create_student_with_Name students d name :
  d !! "Name" = Some name →
  App.create_student students (JDict d) =
    let new_id := App.max_default (App.keys students) 0 + 1 in
    let new_student :=
      {| ID := new_id;
         Name := name;
         Grade := App.dict_get d "Grade" (JStr "N/A");
         Email := App.dict_get d "Email" (JStr "") |} in
    (<[new_id := new_student]> students, Response 201 (StudentJson new_student)).
Proof.
  intros Hname. unfold App.create_student.
  rewrite (truthy_dict_lookup _ _ _ Hname). cbn [negb App.contains_Name].
  rewrite bool_decide_eq_true_2 by (by rewrite Hname).
  by rewrite Hname.
Qed.

(** The path of [create_student] for a dictionary without ['Name']. *)
Lemma create_student_without_Name students d :
  d !! "Name" = None → App.create_student students (JDict d) = (students, abort 400).
Proof.
  intros Hname. unfold App.create_student.
  destruct (truthy (JDict d)); cbn [negb App.contains_Name]; [|done].
  rewrite bool_decide_eq_false_2; [done|]. rewrite Hname. by intros [? ?].
Qed.

(** Whatever the body, [create_student] either leaves the store alone
    and answers with an error, or inserts one record under its own
    [ID] and answers 201 with that record. *)
Lemma create_student_cases students rjson :
  (∃ code, App.create_student students rjson = (students, Response code ErrorPage)
           ∧ (code = 400 ∨ code = 500))
  ∨ (∃ st, App.create_student students rjson =
             (<[ID st := st]> students, Response 201 (StudentJson st))
           ∧ ID st = App.max_default (App.keys students) 0 + 1).
Proof.
  unfold App.create_student.
  destruct (truthy rjson); cbn [negb]; [|left; exists 400; auto].
  destruct (App.contains_Name rjson) as [[|]|];
    [|left; exists 400; auto|left; exists 500; auto].
  destruct rjson; try (left; exists 500; by auto).
  destruct (d !! "Name") as [name|]; [|left; exists 500; by auto].
  right.
  by exists {| ID := App.max_default (App.keys students) 0 + 1;
               Name := name;
               Grade := App.dict_get d "Grade" (JStr "N/A");
               Email := App.dict_get d "Email" (JStr "") |}.
Qed.

(** The path of [update_student] for a known id and a dictionary that is
    not empty. *)
Lemma update_student_dict students student_id st d :
  students !! student_id = Some st →
  d ≠ ∅ →
  App.update_student students student_id (JDict d) =
    let st' :=
      {| ID := ID st;
         Name := App.dict_get d "Name" (Name st);
         Grade := App.dict_get d "Grade" (Grade st);
         Email := App.dict_get d "Email" (Email st) |} in
    (<[student_id := st']> students, Response 200 (StudentJson st')).
Proof.
  intros Hst Hd. unfold App.update_student. rewrite Hst.
  assert (truthy (JDict d) = true) as ->; [|done].
  simpl. apply negb_true_iff, Nat.eqb_neq. intros Hsize.
  by apply Hd, map_size_empty_inv.
Qed.

Lemma update_student_unknown students student_id rjson :
  students !! student_id = None →
  App.update_student students student_id rjson = (students, abort 404).
Proof. intros Hst. unfold App.update_student. by rewrite Hst. Qed.

Lemma update_student_falsy students student_id st rjson :
  students !! student_id = Some st →
  truthy rjson = false →
  App.update_student students student_id rjson = (students, abort 400).
Proof. intros Hst Hj. unfold App.update_student. by rewrite Hst, Hj. Qed.

(** Whatever the body, [update_student] either leaves the store alone
    and answers with an error, or replaces the record under
    [student_id] by one with the same [ID] and answers 200. *)
Lemma update_student_cases students student_id rjson :
  (∃ code, App.update_student students student_id rjson =
             (students, Response code ErrorPage)
           ∧ (code = 404 ∨ code = 400 ∨ code = 500))
  ∨ (∃ st st', students !! student_id = Some st
           ∧ App.update_student students student_id rjson =
               (<[student_id := st']> students, Response 200 (StudentJson st'))
           ∧ ID st' = ID st).
Proof.
  unfold App.update_student.
  destruct (students !! student_id) as [st|]; [|left; exists 404; auto].
  destruct (truthy rjson); cbn [negb]; [|left; exists 400; auto].
  destruct rjson; try (left; exists 500; by auto).
  right. eexists st, _. repeat split; reflexivity.
Qed.

Lemma delete_student_cases students student_id :
  (students !! student_id = None
   ∧ App.delete_student students student_id = (students, abort 404))
  ∨ (is_Some (students !! student_id)
     ∧ App.delete_student students student_id =
         (delete student_id students, Response 204 Empty)).
Proof.
  unfold App.delete_student. case_bool_decide as H.
  - right. done.
  - left. split; [|done]. by apply eq_None_not_Some.
Qed.

End HandlerEquations.

(** ** Creation: identifiers and defaults *)

Section Creation.

Implicit Types (students : gmap Z student) (d : gmap string json).

(** C1. A POST whose JSON object has ['Name'] answers 201 with a new
    record, stored under its own [ID]; that [ID] is one more than
    [max(students.keys(), default=0)], which is [0] on the empty store
    and otherwise the largest key present. *)
Theorem create_student_assigns_next_ID students d name :
  d !! "Name" = Some name →
  let biggest := App.max_default (App.keys students) 0 in
  ∃ new_student,
    handle students (POST_students (Json (JDict d))) =
      (<[ID new_student := new_student]> students,
       Response 201 (StudentJson new_student))
    ∧ ID new_student = biggest + 1
    ∧ (students = ∅ → biggest = 0)
    ∧ (∀ k, is_Some (students !! k) → k ≤ biggest)
    ∧ (students ≠ ∅ → is_Some (students !! biggest)).
Proof.
  intros Hname biggest. cbn [handle request_json].
  rewrite (create_student_with_Name _ _ _ Hname). cbn zeta. fold biggest.
  exists {| ID := biggest + 1;
            Name := name;
            Grade := App.dict_get d "Grade" (JStr "N/A");
            Email := App.dict_get d "Email" (JStr "") |}.
  cbn [ID]. split; [done|]. split; [done|]. split; [|split].
  - intros ->. apply max_key_empty.
  - apply max_key_ub.
  - apply max_key_present.
Qed.

Lemma create_student_assigns_next_ID_witness :
  Sample.two_students !! 2 = Some Sample.bob ∧
  ∃ new_student,
    handle Sample.two_students (POST_students (Json Sample.carl_body)) =
      (<[ID new_student := new_student]> Sample.two_students,
       Response 201 (StudentJson new_student))
    ∧ ID new_student = 3.
Proof.
  split; [vm_compute; reflexivity|].
  assert (({[ "Name" := JStr "Carl" ]} : gmap string json) !! "Name"
          = Some (JStr "Carl")) as Hname by (vm_compute; reflexivity).
  destruct (create_student_assigns_next_ID Sample.two_students _ _ Hname)
    as (st & Hrun & HID & _).
  exists st. split; [exact Hrun|]. rewrite HID. vm_compute; reflexivity.
Defined.

(** C5. When the object has ['Name'], a missing ['Grade'] is stored as
    ['N/A'] and a missing ['Email'] as the empty string. *)
Theorem create_student_defaults students d name :
  d !! "Name" = Some name →
  ∃ students' new_student,
    handle students (POST_students (Json (JDict d))) =
      (students', Response 201 (StudentJson new_student))
    ∧ students' !! ID new_student = Some new_student
    ∧ Name new_student = name
    ∧ (d !! "Grade" = None → Grade new_student = JStr "N/A")
    ∧ (d !! "Email" = None → Email new_student = JStr "")
    ∧ (∀ g, d !! "Grade" = Some g → Grade new_student = g)
    ∧ (∀ e, d !! "Email" = Some e → Email new_student = e).
Proof.
  intros Hname. cbn [handle request_json].
  rewrite (create_student_with_Name _ _ _ Hname). cbn zeta.
  eexists _, _. split; [reflexivity|]. cbn [ID Name Grade Email].
  unfold App.dict_get.
  split; [apply lookup_insert_eq|]. split; [done|].
  repeat split.
  - by intros ->.
  - by intros ->.
  - by intros g ->.
  - by intros e ->.
Qed.

Lemma create_student_defaults_witness :
  ∃ students' new_student,
    handle ∅ (POST_students (Json Sample.alice_body)) =
      (students', Response 201 (StudentJson new_student))
    ∧ Grade new_student = JStr "N/A"
    ∧ Email new_student = JStr "".
Proof.
  assert (({[ "Name" := JStr "Alice" ]} : gmap string json) !! "Name"
          = Some (JStr "Alice")) as Hname by (vm_compute; reflexivity).
  destruct (create_student_defaults ∅ _ _ Hname)
    as (students' & st & Hrun & _ & _ & HG & HE & _).
  exists students', st. split; [exact Hrun|].
  split; [apply HG | apply HE]; vm_compute; reflexivity.
Defined.

End Creation.

(** ** The four-request scenario *)

Section Scenario.

Lemma scenario_run :
  run ∅ Sample.scenario =
    (<[3 := Student 3 (JStr "Carl") (JStr "N/A") (JStr "")]>
       (<[2 := Sample.bob]> ∅),
     [ Response 201 (StudentJson Sample.alice);
       Response 201 (StudentJson Sample.bob);
       Response 204 Empty;
       Response 201
         (StudentJson (Student 3 (JStr "Carl") (JStr "N/A") (JStr ""))) ]).
Proof. vm_compute. reflexivity. Qed.

(** C2, as the service behaves. After POST Alice, POST Bob and
    DELETE /students/1 the only key left is [2], so the last POST is
    answered 201 with [ID] 3; the four responses are listed in full. *)
Theorem scenario_responses :
  (run ∅ Sample.scenario).2 =
    [ Response 201 (StudentJson Sample.alice);
      Response 201 (StudentJson Sample.bob);
      Response 204 Empty;
      Response 201
        (StudentJson (Student 3 (JStr "Carl") (JStr "N/A") (JStr ""))) ]
  ∧ App.keys (run ∅ Sample.scenario).1 = [3; 2].
Proof. rewrite scenario_run. split; [reflexivity|]. vm_compute. reflexivity. Qed.

(** C2, as stated: the last response of the scenario is not a 201
    carrying [ID] 2. *)
Lemma scenario_final_ID_is_not_2 :
  ¬ ∃ st, last (run ∅ Sample.scenario).2 = Some (Response 201 (StudentJson st))
          ∧ ID st = 2.
Proof.
  intros (st & Hlast & HID).
  rewrite scenario_run in Hlast. cbn in Hlast. injection Hlast as <-. discriminate HID.
Qed.

End Scenario.

(** ** Updates *)

Section Updates.

Implicit Types (students : gmap Z student) (d : gmap string json).

(** [update_student] answers 404 exactly for the ids that are not in
    the store. *)
Lemma update_student_404_iff students student_id rjson :
  status (App.update_student students student_id rjson).2 = 404
  ↔ students !! student_id = None.
Proof.
  unfold App.update_student.
  destruct (students !! student_id) as [st|]; [|done].
  destruct (truthy rjson); cbn; [|split; discriminate].
  destruct rjson; cbn; split; discriminate.
Qed.

(** For an id in the store it answers 400 exactly for the bodies that
    are falsy: no JSON body, but also [null], [false], [0], [""], [[]]
    and [{}]. *)
Lemma update_student_400_iff students student_id st p :
  students !! student_id = Some st →
  status (handle students (PUT_student student_id p)).2 = 400
  ↔ truthy (request_json p) = false.
Proof.
  intros Hst. cbn [handle]. unfold App.update_student. rewrite Hst.
  destruct (truthy (request_json p)); cbn.
  - split; [|discriminate]. destruct (request_json p); discriminate.
  - done.
Qed.

(** C3, on the empty object. For an id in the store, PUT with the body
    [{}] is answered 400 and changes nothing: [not request.json] holds
    of the empty dictionary. *)
Theorem update_student_empty_object_400 students student_id st :
  handle (<[student_id := st]> students)
         (PUT_student student_id (Json (JDict ∅)))
  = (<[student_id := st]> students, abort 400).
Proof.
  cbn [handle request_json].
  apply (update_student_falsy _ _ st); [apply lookup_insert_eq | reflexivity].
Qed.

(** C4. For an id in the store, PUT with the body [{"Grade": v}] is
    answered 200; the record under that id gets [Grade = v] and keeps
    its [ID], [Name] and [Email]; every other id maps to what it mapped
    to before. *)
Theorem update_student_Grade_only students student_id st v :
  students !! student_id = Some st →
  let st' := {| ID := ID st; Name := Name st; Grade := v; Email := Email st |} in
  ∃ students',
    handle students (PUT_student student_id (Json (JDict {[ "Grade" := v ]})))
      = (students', Response 200 (StudentJson st'))
    ∧ students' !! student_id = Some st'
    ∧ ∀ other, other ≠ student_id → students' !! other = students !! other.
Proof.
  intros Hst st'. cbn [handle request_json].
  rewrite (update_student_dict _ _ st) by (done || apply insert_non_empty).
  cbn zeta. unfold App.dict_get.
  rewrite lookup_singleton_eq, !lookup_singleton_ne by done.
  eexists. split; [reflexivity|]. split.
  - apply lookup_insert_eq.
  - intros other Hne. by apply lookup_insert_ne.
Qed.

Lemma update_student_Grade_only_witness :
  ∃ students',
    handle Sample.two_students
           (PUT_student 1 (Json (JDict {[ "Grade" := JStr "A" ]})))
      = (students',
         Response 200
           (StudentJson (Student 1 (JStr "Alice") (JStr "A") (JStr ""))))
    ∧ students' !! 1 = Some (Student 1 (JStr "Alice") (JStr "A") (JStr ""))
    ∧ students' !! 2 = Some Sample.bob.
Proof.
  assert (Sample.two_students !! 1 = Some Sample.alice) as Hst
    by (vm_compute; reflexivity).
  destruct (update_student_Grade_only Sample.two_students 1 Sample.alice
              (JStr "A") Hst) as (students' & Hrun & Hnew & Hother).
  exists students'. split; [exact Hrun|]. split; [exact Hnew|].
  rewrite Hother by lia. vm_compute; reflexivity.
Defined.

End Updates.

(** ** A client-supplied ['ID'] *)

Section SuppliedID.

Implicit Types (students : gmap Z student) (d : gmap string json).

Lemma dict_get_insert_ne d key key' v default :
  key ≠ key' → App.dict_get (<[key := v]> d) key' default = App.dict_get d key' default.
Proof. intros Hne. unfold App.dict_get. by rewrite lookup_insert_ne. Qed.

(** [create_student] never reads the key ['ID']. *)
Lemma create_student_ID_value students d v :
  App.create_student students (JDict (<["ID" := v]> d)) =
  App.create_student students (JDict (delete "ID" d)).
Proof.
  destruct (d !! "Name") as [name|] eqn:Hname.
  - rewrite (create_student_with_Name _ _ name)
      by (by rewrite lookup_insert_ne).
    rewrite (create_student_with_Name _ (delete "ID" d) name)
      by (by rewrite lookup_delete_ne).
    unfold App.dict_get. by rewrite !lookup_insert_ne, !lookup_delete_ne.
  - rewrite !create_student_without_Name; [done|..].
    + by rewrite lookup_delete_ne.
    + by rewrite lookup_insert_ne.
Qed.

(** C8. Let the JSON object of a request have the key ['ID']. On POST,
    on every store (the empty one included), replacing the supplied value
    by any other changes neither the store nor the response; a record that
    is created has the [ID] the server computed,
    [max(students.keys(), default=0) + 1], and is stored under it. On PUT,
    for every id, replacing the supplied value changes nothing either, and
    for an id in the store the updated record keeps the [ID] it had. *)
Theorem supplied_ID_ignored students student_id d v :
  d !! "ID" = Some v →
  (∀ v', handle students (POST_students (Json (JDict (<["ID" := v']> d))))
         = handle students (POST_students (Json (JDict d))))
  ∧ (∀ students' new_student,
       handle students (POST_students (Json (JDict d)))
         = (students', Response 201 (StudentJson new_student)) →
       ID new_student = App.max_default (App.keys students) 0 + 1
       ∧ students' = <[ID new_student := new_student]> students)
  ∧ (∀ name, d !! "Name" = Some name →
       ∃ new_student,
         handle students (POST_students (Json (JDict d)))
           = (<[ID new_student := new_student]> students,
              Response 201 (StudentJson new_student))
         ∧ ID new_student = App.max_default (App.keys students) 0 + 1)
  ∧ (∀ v', handle students (PUT_student student_id (Json (JDict (<["ID" := v']> d))))
           = handle students (PUT_student student_id (Json (JDict d))))
  ∧ (∀ st, students !! student_id = Some st →
       ∃ st',
         handle students (PUT_student student_id (Json (JDict d)))
           = (<[student_id := st']> students, Response 200 (StudentJson st'))
         ∧ ID st' = ID st).
Proof.
  intros HID. cbn [handle request_json].
  assert (d ≠ ∅) as Hd by (intros ->; by rewrite lookup_empty in HID).
  split; [|split; [|split; [|split]]].
  - intros v'. rewrite create_student_ID_value.
    rewrite <- (insert_id d "ID" v HID) at 2.
    by rewrite create_student_ID_value.
  - intros students' new_student Hrun.
    destruct (create_student_cases students (JDict d))
      as [(code & Herr & _)|(st0 & Hok & HID0)]; rewrite Hrun in *.
    + discriminate Herr.
    + by injection Hok as -> ->.
  - intros name Hname.
    rewrite (create_student_with_Name _ _ _ Hname). cbn zeta.
    by exists {| ID := App.max_default (App.keys students) 0 + 1;
                 Name := name;
                 Grade := App.dict_get d "Grade" (JStr "N/A");
                 Email := App.dict_get d "Email" (JStr "") |}.
  - intros v'. destruct (students !! student_id) as [st|] eqn:Hst.
    + rewrite !(update_student_dict _ _ st) by (done || apply insert_non_empty).
      cbn zeta. by rewrite !dict_get_insert_ne.
    + by rewrite !update_student_unknown.
  - intros st Hst. rewrite (update_student_dict _ _ st) by done. cbn zeta.
    eexists. split; reflexivity.
Qed.

Lemma supplied_ID_ignored_witness :
  (∃ new_student,
     handle ∅
       (POST_students (Json (JDict (<["ID" := JInt 7]> {[ "Name" := JStr "Carl" ]}))))
     = (<[1 := new_student]> ∅, Response 201 (StudentJson new_student))
     ∧ ID new_student = 1)
  ∧ handle Sample.two_students
      (POST_students (Json (JDict (<["ID" := JInt 1]> {[ "Name" := JStr "Carl" ]}))))
    = handle Sample.two_students
        (POST_students (Json (JDict (<["ID" := JInt 7]> {[ "Name" := JStr "Carl" ]}))))
  ∧ ∃ st',
      handle Sample.two_students
        (PUT_student 2 (Json (JDict (<["ID" := JInt 7]> {[ "Name" := JStr "Carl" ]}))))
      = (<[2 := st']> Sample.two_students, Response 200 (StudentJson st'))
      ∧ ID st' = 2.
Proof.
  assert ((<["ID" := JInt 7]> {[ "Name" := JStr "Carl" ]} : gmap string json)
            !! "ID" = Some (JInt 7)) as HID by (vm_compute; reflexivity).
  assert ((<["ID" := JInt 7]> {[ "Name" := JStr "Carl" ]} : gmap string json)
            !! "Name" = Some (JStr "Carl")) as Hname by (vm_compute; reflexivity).
  assert (Sample.two_students !! 2 = Some Sample.bob) as Hst
    by (vm_compute; reflexivity).
  split; [|split].
  - destruct (supplied_ID_ignored ∅ 0 _ _ HID) as (_ & _ & Hcreate & _).
    destruct (Hcreate _ Hname) as (new_student & Hrun & Hnew).
    assert (ID new_student = 1) as Hone by (rewrite Hnew; vm_compute; reflexivity).
    exists new_student. split; [|exact Hone]. rewrite Hrun. by rewrite Hone.
  - destruct (supplied_ID_ignored Sample.two_students 2 _ _ HID) as (Hpost & _).
    rewrite <- (Hpost (JInt 1)). by rewrite insert_insert_eq.
  - destruct (supplied_ID_ignored Sample.two_students 2 _ _ HID)
      as (_ & _ & _ & _ & Hput).
    destruct (Hput _ Hst) as (st' & Hrun & Hkeep).
    exists st'. split; [exact Hrun | exact Hkeep].
Defined.

End SuppliedID.

(** ** Reading back *)

Section ReadBack.

Implicit Types (students : gmap Z student).

(** C6. After a POST answered 201, a GET for the [ID] of the returned
    record, on the store the POST left, is answered 200 with that same
    record. *)
Theorem get_student_after_create students p students' resp :
  handle students (POST_students p) = (students', resp) →
  status resp = 201 →
  ∃ st, resp = Response 201 (StudentJson st)
        ∧ handle students' (GET_student (ID st))
          = (students', Response 200 (StudentJson st)).
Proof.
  cbn [handle]. intros Hrun Hstatus.
  destruct (create_student_cases students (request_json p))
    as [(code & Herr & Hcode)|(st & Hok & _)]; rewrite Hrun in *.
  - injection Herr as _ ->. cbn in Hstatus. lia.
  - injection Hok as -> ->. exists st. split; [done|].
    unfold App.get_student. by rewrite lookup_insert_eq.
Qed.

Lemma get_student_after_create_witness :
  ∃ st, ID st = 3
        ∧ handle (handle Sample.two_students
                    (POST_students (Json Sample.carl_body))).1
                 (GET_student (ID st))
          = ((handle Sample.two_students
                (POST_students (Json Sample.carl_body))).1,
             Response 200 (StudentJson st)).
Proof.
  destruct (handle Sample.two_students (POST_students (Json Sample.carl_body)))
    as [students' resp] eqn:Hrun.
  assert (resp = Response 201
                   (StudentJson (Student 3 (JStr "Carl") (JStr "N/A") (JStr ""))))
    as Hresp by (vm_compute in Hrun; by injection Hrun as _ <-).
  destruct (get_student_after_create _ _ _ _ Hrun) as (st & Hst & Hget).
  - rewrite Hresp. reflexivity.
  - exists st. split; [|exact Hget].
    rewrite Hresp in Hst. by injection Hst as <-.
Defined.

(** C7. After a DELETE answered 204 (with the empty body), a GET for
    the same id, on the store the DELETE left, is answered 404. *)
Theorem get_student_after_delete students student_id students' resp :
  handle students (DELETE_student student_id) = (students', resp) →
  status resp = 204 →
  content resp = Empty
  ∧ handle students' (GET_student student_id) = (students', abort 404).
Proof.
  cbn [handle]. intros Hrun Hstatus.
  destruct (delete_student_cases students student_id)
    as [[_ Herr]|[_ Hok]]; rewrite Hrun in *.
  - injection Herr as _ ->. discriminate Hstatus.
  - injection Hok as -> ->. split; [done|].
    unfold App.get_student. by rewrite lookup_delete_eq.
Qed.

Lemma get_student_after_delete_witness :
  handle (delete 1 Sample.two_students) (GET_student 1)
  = (delete 1 Sample.two_students, abort 404).
Proof.
  apply (get_student_after_delete Sample.two_students 1 _ (Response 204 Empty)).
  - vm_compute. reflexivity.
  - reflexivity.
Defined.

End ReadBack.

(** ** Invariant of the store *)

Section Invariant.

Implicit Types (students : gmap Z student).

Lemma keyed_by_ID_empty : keyed_by_ID ∅.
Proof. intros k st Hk. by rewrite lookup_empty in Hk. Qed.

Lemma keyed_by_ID_insert students k st :
  ID st = k → keyed_by_ID students → keyed_by_ID (<[k := st]> students).
Proof.
  intros HID Hinv k' st' Hk'.
  apply lookup_insert_Some in Hk' as [[<- <-]|[_ Hk']]; [done|].
  by apply Hinv.
Qed.

Lemma keyed_by_ID_delete students k :
  keyed_by_ID students → keyed_by_ID (delete k students).
Proof.
  intros Hinv k' st' Hk'. apply lookup_delete_Some in Hk' as [_ Hk'].
  by apply Hinv.
Qed.

(** Each handler preserves the invariant. *)
Lemma keyed_by_ID_handle students r :
  keyed_by_ID students → keyed_by_ID (handle students r).1.
Proof.
  intros Hinv. destruct r as [student_id|p|student_id p|student_id]; cbn [handle].
  - done.
  - destruct (create_student_cases students (request_json p))
      as [(code & -> & _)|(st & -> & _)]; [done|].
    by apply keyed_by_ID_insert.
  - destruct (update_student_cases students student_id (request_json p))
      as [(code & -> & _)|(st & st' & Hst & -> & HID)]; [done|].
    apply keyed_by_ID_insert; [|done]. rewrite HID. by apply Hinv.
  - destruct (delete_student_cases students student_id)
      as [[_ ->]|[_ ->]]; [done|].
    by apply keyed_by_ID_delete.
Qed.

Lemma reachable_keyed_by_ID students : reachable students → keyed_by_ID students.
Proof.
  induction 1 as [|students r _ IH].
  - apply keyed_by_ID_empty.
  - by apply keyed_by_ID_handle.
Qed.

(** The store after any session that starts on a reachable store is
    reachable; in particular the store after any session from the
    empty store. *)
Lemma reachable_run students rs :
  reachable students → reachable (run students rs).1.
Proof.
  revert students. induction rs as [|r rs IH]; intros students Hreach; [done|].
  cbn [run]. pose proof (reachable_step students r Hreach) as Hstep.
  destruct (handle students r) as [students' resp].
  specialize (IH students' Hstep).
  by destruct (run students' rs).
Qed.

(** C9. In every store reachable from the empty one, a record stored
    under key [k] has [ID = k]; hence records under different keys have
    different [ID]s. *)
Theorem reachable_ID_is_key students :
  reachable students →
  (∀ k st, students !! k = Some st → ID st = k)
  ∧ (∀ k1 k2 st1 st2,
       students !! k1 = Some st1 → students !! k2 = Some st2 →
       k1 ≠ k2 → ID st1 ≠ ID st2).
Proof.
  intros Hinv%reachable_keyed_by_ID. split; [exact Hinv|].
  intros k1 k2 st1 st2 H1 H2 Hne.
  by rewrite (Hinv _ _ H1), (Hinv _ _ H2).
Qed.

Lemma reachable_ID_is_key_witness :
  reachable (run ∅ Sample.scenario).1
  ∧ ∃ st, (run ∅ Sample.scenario).1 !! 3 = Some st ∧ ID st = 3.
Proof.
  assert (reachable (run ∅ Sample.scenario).1) as Hreach
    by apply reachable_run, reachable_init.
  split; [exact Hreach|].
  exists (Student 3 (JStr "Carl") (JStr "N/A") (JStr "")).
  assert ((run ∅ Sample.scenario).1 !! 3
          = Some (Student 3 (JStr "Carl") (JStr "N/A") (JStr ""))) as Hst
    by (vm_compute; reflexivity).
  split; [exact Hst|].
  exact (proj1 (reachable_ID_is_key _ Hreach) _ _ Hst).
Defined.

End Invariant.

(** ** Error paths *)

Section Errors.

Implicit Types (students : gmap Z student).

(** A store changes only under the statuses 201, 200 and 204. *)
Lemma handle_store_changes students r :
  (handle students r).1 = students
  ∨ status (handle students r).2 = 201
  ∨ status (handle students r).2 = 200
  ∨ status (handle students r).2 = 204.
Proof.
  destruct r as [student_id|p|student_id p|student_id]; cbn [handle].
  - by left.
  - destruct (create_student_cases students (request_json p))
      as [(code & -> & _)|(st & -> & _)]; [by left | right; by left].
  - destruct (update_student_cases students student_id (request_json p))
      as [(code & -> & _)|(st & st' & _ & -> & _)];
      [by left | right; right; by left].
  - destruct (delete_student_cases students student_id)
      as [[_ ->]|[_ ->]]; [by left | right; right; by right].
Qed.

(** C10. When a handler answers 404 or 400, the store after the request
    is the store before it. *)
Theorem error_leaves_store_unchanged students r students' resp :
  handle students r = (students', resp) →
  status resp = 404 ∨ status resp = 400 →
  students' = students.
Proof.
  intros Hrun Herr.
  destruct (handle_store_changes students r) as [H|H];
    rewrite Hrun in H; cbn in H; [done|].
  exfalso. lia.
Qed.

Lemma error_leaves_store_unchanged_witness :
  (handle Sample.two_students (PUT_student 3 (Json Sample.carl_body))).1
    = Sample.two_students
  ∧ (handle Sample.two_students (POST_students NoJson)).1
    = Sample.two_students.
Proof.
  split.
  - apply (error_leaves_store_unchanged Sample.two_students
             (PUT_student 3 (Json Sample.carl_body)) _ (abort 404)).
    + vm_compute. reflexivity.
    + left. reflexivity.
  - apply (error_leaves_store_unchanged Sample.two_students
             (POST_students NoJson) _ (abort 400)).
    + vm_compute. reflexivity.
    + right. reflexivity.
Defined.

(** X20. When a handler raises and the framework answers 500, the store
    after the request is the store before it. *)
Lemma internal_error_leaves_store_unchanged students r :
  status (handle students r).2 = 500 → (handle students r).1 = students.
Proof.
  intros Herr. destruct (handle_store_changes students r) as [H|H]; [done|].
  exfalso. lia.
Qed.

Lemma internal_error_leaves_store_unchanged_witness :
  (handle Sample.two_students (POST_students (Json (JInt 7)))).1
  = Sample.two_students.
Proof.
  apply internal_error_leaves_store_unchanged. reflexivity.
Defined.

End Errors.


(** ** Further properties of creation *)

Section MoreCreation.

Implicit Types (students : gmap Z student) (d : gmap string json).

(** The id [create_student] computes is not a key of the store. *)
Lemma new_id_fresh students :
  students !! (App.max_default (App.keys students) 0 + 1) = None.
Proof.
  apply eq_None_not_Some. intros Hin. apply max_key_ub in Hin. lia.
Qed.

(** X1. A POST is answered 201 exactly when its body is a JSON object
    that has the key ['Name'] (whatever value it holds); in particular
    no body, [{}] and arrays, strings or numbers never create a record. *)
Theorem create_student_201_iff students p :
  status (handle students (POST_students p)).2 = 201
  ↔ ∃ d name, p = Json (JDict d) ∧ d !! "Name" = Some name.
Proof.
  split.
  - cbn [handle]. unfold App.create_student.
    destruct p as [|j]; cbn [request_json]; [discriminate|].
    destruct (truthy j); cbn [negb]; [|discriminate].
    destruct (App.contains_Name j) as [[|]|]; [|discriminate..].
    destruct j; try discriminate.
    destruct (d !! "Name") as [name|] eqn:Hname; [|discriminate].
    intros _. by exists d, name.
  - intros (d & name & -> & Hname). cbn [handle request_json].
    by rewrite (create_student_with_Name _ _ _ Hname).
Qed.

(** X2. A POST, whatever its body, leaves every record that is in the
    store where it is: creation never overwrites. *)
Theorem create_student_keeps_records students p k st :
  students !! k = Some st →
  (handle students (POST_students p)).1 !! k = Some st.
Proof.
  intros Hk. cbn [handle].
  destruct (create_student_cases students (request_json p))
    as [(code & -> & _)|(st0 & -> & HID)]; [done|]. cbn [fst].
  rewrite lookup_insert_ne; [done|]. intros Heq.
  pose proof (new_id_fresh students) as Hfresh.
  rewrite <- HID, Heq, Hk in Hfresh. discriminate.
Qed.

Lemma create_student_keeps_records_witness :
  (handle Sample.two_students (POST_students (Json Sample.carl_body))).1 !! 2
  = Some Sample.bob.
Proof.
  apply create_student_keeps_records. vm_compute. reflexivity.
Defined.

(** What a POST answered 201 did to the store. *)
Lemma create_student_adds_one_aux students p students' st :
  handle students (POST_students p) = (students', Response 201 (StudentJson st)) →
  students !! ID st = None
  ∧ students' = <[ID st := st]> students
  ∧ ID st = App.max_default (App.keys students) 0 + 1.
Proof.
  cbn [handle]. intros Hrun.
  destruct (create_student_cases students (request_json p))
    as [(code & Herr & _)|(st0 & Hok & HID)]; rewrite Hrun in *.
  - discriminate Herr.
  - injection Hok as -> <-. split; [|done].
    rewrite HID. apply new_id_fresh.
Qed.

(** X3. A POST answered 201 adds exactly one key, the [ID] of the
    returned record, which was not in the store; the store grows by one. *)
Theorem create_student_adds_one students p students' st :
  handle students (POST_students p) = (students', Response 201 (StudentJson st)) →
  students !! ID st = None
  ∧ dom students' = {[ ID st ]} ∪ dom students
  ∧ size students' = S (size students).
Proof.
  intros Hrun.
  destruct (create_student_adds_one_aux _ _ _ _ Hrun) as (Hfresh & -> & _).
  split; [done|]. split; [apply dom_insert_L|].
  by apply map_size_insert_None.
Qed.

Lemma create_student_adds_one_witness :
  Sample.two_students !! 3 = None
  ∧ size (handle Sample.two_students (POST_students (Json Sample.carl_body))).1
    = 3%nat.
Proof.
  destruct (create_student_adds_one Sample.two_students (Json Sample.carl_body)
              (handle Sample.two_students (POST_students (Json Sample.carl_body))).1
              (Student 3 (JStr "Carl") (JStr "N/A") (JStr "")))
    as (Hfresh & _ & Hsize).
  - vm_compute. reflexivity.
  - split; [exact Hfresh|]. rewrite Hsize. vm_compute. reflexivity.
Defined.

(** X4. A POST whose body is a JSON array is never answered 201: when
    the string ["Name"] is one of its elements the handler raises on
    [request.json['Name']] (500), otherwise it aborts with 400 (as it does
    for the empty array). The store is left as it was. *)
Theorem create_student_array_body students (l : list json) :
  (JStr "Name" ∈ l →
     handle students (POST_students (Json (JList l))) = (students, internal_error))
  ∧ (JStr "Name" ∉ l →
     handle students (POST_students (Json (JList l))) = (students, abort 400)).
Proof.
  cbn [handle request_json]. unfold App.create_student.
  destruct l as [|x l]; cbn [truthy negb].
  { split; [by intros ?%elem_of_nil | done]. }
  cbn [App.contains_Name].
  set (is_Name := λ x : json, match x with
                              | JStr s => String.eqb s "Name"
                              | _ => false
                              end).
  destruct (existsb is_Name (x :: l)) eqn:Hex.
  - split; [done|]. intros Hnot. exfalso. apply Hnot.
    apply existsb_exists in Hex as (y & Hy & HisName).
    apply list_elem_of_In in Hy. destruct y; try discriminate HisName.
    apply String.eqb_eq in HisName. by subst.
  - split; [|done]. intros Hin. exfalso.
    assert (existsb is_Name (x :: l) = true) as Htrue; [|congruence].
    apply existsb_exists. exists (JStr "Name").
    split; [by apply list_elem_of_In | reflexivity].
Qed.

Lemma create_student_array_body_witness :
  handle Sample.two_students (POST_students (Json (JList [JStr "Name"])))
  = (Sample.two_students, internal_error).
Proof.
  apply create_student_array_body. apply list_elem_of_here.
Defined.

End MoreCreation.

(** ** Further properties of update and delete *)

Section MoreUpdates.

Implicit Types (students : gmap Z student) (d : gmap string json).

Lemma dict_get_idemp d key default :
  App.dict_get d key (App.dict_get d key default) = App.dict_get d key default.
Proof. unfold App.dict_get. by destruct (d !! key). Qed.

Lemma dict_get_union d1 d2 key default :
  App.dict_get (d2 ∪ d1) key default
  = App.dict_get d2 key (App.dict_get d1 key default).
Proof.
  unfold App.dict_get. rewrite lookup_union.
  by destruct (d2 !! key), (d1 !! key).
Qed.

Lemma truthy_dict_iff d : truthy (JDict d) = true ↔ d ≠ ∅.
Proof.
  cbn [truthy]. rewrite negb_true_iff, Nat.eqb_neq. split.
  - intros Hsize ->. by apply Hsize, map_size_empty.
  - intros Hd Hsize. by apply Hd, map_size_empty_inv.
Qed.

(** X5. A PUT is answered 200 exactly when the id is in the store and
    the body is a JSON object that is not empty. *)
Theorem update_student_200_iff students student_id p :
  status (handle students (PUT_student student_id p)).2 = 200
  ↔ is_Some (students !! student_id) ∧ ∃ d, p = Json (JDict d) ∧ d ≠ ∅.
Proof.
  cbn [handle]. split.
  - unfold App.update_student.
    destruct (students !! student_id) as [st|]; [|discriminate].
    destruct (truthy (request_json p)) eqn:Htruthy; cbn [negb]; [|discriminate].
    destruct p as [|j]; cbn [request_json] in *; [discriminate|].
    destruct j; try discriminate. intros _.
    split; [done|]. exists d. split; [done|]. by apply truthy_dict_iff.
  - intros [[st Hst] (d & -> & Hd)]. cbn [request_json].
    by rewrite (update_student_dict _ _ st).
Qed.

(** X6. For an id in the store, a PUT whose body is JSON but neither
    falsy nor an object (a non-empty array or string, a non-zero number,
    [true]) makes the handler raise on [request.json.get]: the answer is
    500 and the store is left as it was. *)
Theorem update_student_non_object_500 students student_id st j :
  students !! student_id = Some st →
  truthy j = true →
  (∀ d, j ≠ JDict d) →
  handle students (PUT_student student_id (Json j)) = (students, internal_error).
Proof.
  intros Hst Htruthy Hnot. cbn [handle request_json].
  unfold App.update_student. rewrite Hst, Htruthy. cbn [negb].
  destruct j; try done. by destruct (Hnot d).
Qed.

Lemma update_student_non_object_500_witness :
  handle Sample.two_students (PUT_student 1 (Json (JList [JStr "Grade"; JStr "A"])))
  = (Sample.two_students, internal_error).
Proof.
  apply (update_student_non_object_500 _ _ Sample.alice).
  - vm_compute. reflexivity.
  - reflexivity.
  - discriminate.
Defined.

(** X7. A PUT never adds or removes a key: whatever the id and the body,
    the store has the same keys afterwards. *)
Theorem update_student_keeps_keys students student_id p :
  dom (handle students (PUT_student student_id p)).1 = dom students.
Proof.
  cbn [handle].
  destruct (update_student_cases students student_id (request_json p))
    as [(code & -> & _)|(st & st' & Hst & -> & _)]; [done|].
  cbn [fst]. by apply dom_insert_lookup_L.
Qed.

(** X8. Repeating a PUT changes nothing more: served again on the store
    it left, the same request leaves that store and gives the same
    response. *)
Theorem update_student_idempotent students student_id p students' resp :
  handle students (PUT_student student_id p) = (students', resp) →
  handle students' (PUT_student student_id p) = (students', resp).
Proof.
  cbn [handle]. unfold App.update_student.
  destruct (students !! student_id) as [st|] eqn:Hst.
  - destruct (truthy (request_json p)) eqn:Htruthy; cbn [negb].
    + destruct (request_json p);
        try (intros [= <- <-]; by rewrite Hst).
      intros [= <- <-]. rewrite lookup_insert_eq.
      cbn [ID Name Grade Email]. by rewrite !dict_get_idemp, insert_insert_eq.
    + intros [= <- <-]. by rewrite Hst.
  - intros [= <- <-]. by rewrite Hst.
Qed.

Lemma update_student_idempotent_witness :
  handle (<[1 := Student 1 (JStr "Alice") (JStr "A") (JStr "")]> Sample.two_students)
         (PUT_student 1 (Json (JDict {[ "Grade" := JStr "A" ]})))
  = (<[1 := Student 1 (JStr "Alice") (JStr "A") (JStr "")]> Sample.two_students,
     Response 200 (StudentJson (Student 1 (JStr "Alice") (JStr "A") (JStr "")))).
Proof.
  apply (update_student_idempotent Sample.two_students).
  vm_compute. reflexivity.
Defined.

(** X9. Two PUTs on the same id with objects [d1] and then [d2], neither
    empty, leave the store and give the response of the single PUT with
    the object that has the keys of both and takes [d2]'s value where both
    have a key. *)
Theorem update_student_twice students student_id st d1 d2 :
  students !! student_id = Some st →
  d1 ≠ ∅ →
  d2 ≠ ∅ →
  handle (handle students (PUT_student student_id (Json (JDict d1)))).1
         (PUT_student student_id (Json (JDict d2)))
  = handle students (PUT_student student_id (Json (JDict (d2 ∪ d1)))).
Proof.
  intros Hst Hd1 Hd2. cbn [handle request_json].
  rewrite (update_student_dict _ _ st _ Hst Hd1). cbn zeta. cbn [fst].
  erewrite update_student_dict; [|apply lookup_insert_eq|done].
  rewrite (update_student_dict _ _ st _ Hst).
  - cbn zeta. cbn [ID Name Grade Email].
    by rewrite !dict_get_union, insert_insert_eq.
  - intros Hempty. apply Hd2. by apply map_positive_l in Hempty.
Qed.

Lemma update_student_twice_witness :
  handle (handle Sample.two_students
            (PUT_student 2 (Json (JDict {[ "Grade" := JStr "C" ]})))).1
         (PUT_student 2 (Json (JDict {[ "Email" := JStr "bob@example.org" ]})))
  = handle Sample.two_students
      (PUT_student 2 (Json (JDict ({[ "Email" := JStr "bob@example.org" ]}
                                     ∪ {[ "Grade" := JStr "C" ]})))).
Proof.
  apply (update_student_twice _ _ Sample.bob).
  - vm_compute. reflexivity.
  - apply insert_non_empty.
  - apply insert_non_empty.
Defined.

(** X10. After a DELETE, answered 204 or 404, the id is not in the store
    and every other id maps to what it mapped to before; a 204 takes
    exactly one record away. *)
Theorem delete_student_frame students student_id students' resp :
  handle students (DELETE_student student_id) = (students', resp) →
  students' !! student_id = None
  ∧ (∀ other, other ≠ student_id → students' !! other = students !! other)
  ∧ (status resp = 204 → S (size students') = size students).
Proof.
  cbn [handle]. intros Hrun.
  destruct (delete_student_cases students student_id)
    as [[Hnone Herr]|[[st Hst] Hok]]; rewrite Hrun in *.
  - injection Herr as -> ->. split; [done|]. split; [done|]. discriminate.
  - injection Hok as -> ->. split; [apply lookup_delete_eq|].
    split; [intros other Hne; by apply lookup_delete_ne|].
    intros _. rewrite map_size_delete_Some by (by exists st).
    assert (size students ≠ 0%nat); [|lia].
    intros Hsize. apply map_size_empty_inv in Hsize. subst.
    by rewrite lookup_empty in Hst.
Qed.

Lemma delete_student_frame_witness :
  delete 1 Sample.two_students !! 1 = None
  ∧ delete 1 Sample.two_students !! 2 = Some Sample.bob.
Proof.
  destruct (delete_student_frame Sample.two_students 1
              (delete 1 Sample.two_students) (Response 204 Empty))
    as (Hgone & Hother & _).
  - vm_compute. reflexivity.
  - split; [exact Hgone|]. rewrite Hother by lia. vm_compute. reflexivity.
Defined.

(** X11. A DELETE repeated on the store the first one left is answered
    404 and changes nothing. *)
Theorem delete_student_twice students student_id students' resp :
  handle students (DELETE_student student_id) = (students', resp) →
  handle students' (DELETE_student student_id) = (students', abort 404).
Proof.
  cbn [handle]. intros Hrun.
  assert (students' !! student_id = None) as Hgone.
  { destruct (delete_student_cases students student_id)
      as [[Hnone Herr]|[_ Hok]]; rewrite Hrun in *.
    - by injection Herr as -> _.
    - injection Hok as -> _. apply lookup_delete_eq. }
  unfold App.delete_student.
  rewrite bool_decide_eq_false_2; [done|]. rewrite Hgone. by intros [? ?].
Qed.

Lemma delete_student_twice_witness :
  handle (delete 1 Sample.two_students) (DELETE_student 1)
  = (delete 1 Sample.two_students, abort 404).
Proof.
  apply (delete_student_twice Sample.two_students 1 _ (Response 204 Empty)).
  vm_compute. reflexivity.
Defined.

(** X12. Deleting the record a POST has just created gives back the
    store as it was before the POST, so the next POST answered 201
    is given the same [ID] again. *)
Theorem create_then_delete_restores students p students' st :
  handle students (POST_students p) = (students', Response 201 (StudentJson st)) →
  handle students' (DELETE_student (ID st)) = (students, Response 204 Empty)
  ∧ ∀ p' students'' st',
      handle students (POST_students p')
        = (students'', Response 201 (StudentJson st')) →
      ID st' = ID st.
Proof.
  intros Hrun.
  destruct (create_student_adds_one_aux students p students' st Hrun)
    as (Hfresh & Hstore & HID).
  split.
  - cbn [handle]. unfold App.delete_student. subst students'.
    rewrite bool_decide_eq_true_2 by (by rewrite lookup_insert_eq).
    by rewrite delete_insert_id.
  - intros p' students'' st' Hrun'.
    destruct (create_student_adds_one_aux students p' students'' st' Hrun')
      as (_ & _ & HID').
    by rewrite HID, HID'.
Qed.

Lemma create_then_delete_restores_witness :
  handle (handle Sample.two_students (POST_students (Json Sample.carl_body))).1
         (DELETE_student 3)
  = (Sample.two_students, Response 204 Empty).
Proof.
  apply (create_then_delete_restores Sample.two_students (Json Sample.carl_body) _
           (Student 3 (JStr "Carl") (JStr "N/A") (JStr ""))).
  vm_compute. reflexivity.
Defined.

End MoreUpdates.

(** ** Sessions *)

Section Sessions.

Implicit Types (students : gmap Z student).

Lemma keys_within_handle students r n :
  0 ≤ n → keys_within students n →
  keys_within (handle students r).1 (n + posts [r]).
Proof.
  intros Hn Hin. destruct r as [student_id|p|student_id p|student_id];
    cbn [handle posts].
  - intros k Hk. specialize (Hin k Hk). lia.
  - destruct (create_student_cases students (request_json p))
      as [(code & -> & _)|(st & -> & HID)]; cbn [fst];
      intros k Hk; [specialize (Hin k Hk); lia|].
    apply lookup_insert_is_Some in Hk as [<-|[_ Hk]];
      [|specialize (Hin k Hk); lia].
    rewrite HID. destruct (decide (students = ∅)) as [->|Hne].
    + rewrite max_key_empty. lia.
    + specialize (Hin _ (max_key_present students Hne)). lia.
  - destruct (update_student_cases students student_id (request_json p))
      as [(code & -> & _)|(st & st' & Hst & -> & _)]; cbn [fst];
      intros k Hk; [specialize (Hin k Hk); lia|].
    apply lookup_insert_is_Some in Hk as [<-|[_ Hk]].
    + assert (1 ≤ student_id ≤ n) by (apply Hin; by exists st). lia.
    + specialize (Hin k Hk). lia.
  - destruct (delete_student_cases students student_id)
      as [[_ ->]|[_ ->]]; cbn [fst];
      intros k Hk; [specialize (Hin k Hk); lia|].
    apply lookup_delete_is_Some in Hk as [_ Hk]. specialize (Hin k Hk). lia.
Qed.

Lemma posts_nonneg rs : 0 ≤ posts rs.
Proof. induction rs as [|[] rs IH]; cbn [posts]; lia. Qed.

Lemma keys_within_run students rs n :
  0 ≤ n → keys_within students n →
  keys_within (run students rs).1 (n + posts rs).
Proof.
  revert students n. induction rs as [|r rs IH]; intros students n Hn Hin.
  - cbn [run posts fst]. intros k Hk. specialize (Hin k Hk). lia.
  - cbn [run].
    pose proof (keys_within_handle students r n Hn Hin) as Hstep.
    destruct (handle students r) as [students' resp]. cbn [fst] in Hstep.
    assert (0 ≤ n + posts [r]) as Hn' by (pose proof (posts_nonneg [r]); lia).
    specialize (IH students' _ Hn' Hstep).
    destruct (run students' rs) as [final resps]. cbn [fst] in *.
    intros k Hk. specialize (IH k Hk).
    assert (posts (r :: rs) = posts [r] + posts rs)
      by (destruct r; cbn [posts]; lia).
    lia.
Qed.

(** X13. After any session that starts on the empty store, every id in
    the store is at least 1 and at most the number of POST requests of
    the session; so is the [ID] of every stored record. *)
Theorem session_ids_bounded (rs : list request) (k : Z) (st : student) :
  (run ∅ rs).1 !! k = Some st →
  1 ≤ k ≤ posts rs ∧ 1 ≤ ID st ≤ posts rs.
Proof.
  intros Hk.
  assert (1 ≤ k ≤ posts rs) as Hbound.
  { apply (keys_within_run ∅ rs 0); [lia| |by exists st].
    intros k' [? Hk']. by rewrite lookup_empty in Hk'. }
  split; [done|].
  assert (ID st = k) as ->; [|done].
  apply (reachable_keyed_by_ID (run ∅ rs).1); [|done].
  apply reachable_run, reachable_init.
Qed.

Lemma session_ids_bounded_witness :
  1 ≤ 3 ≤ posts Sample.scenario.
Proof.
  apply (session_ids_bounded Sample.scenario 3
           (Student 3 (JStr "Carl") (JStr "N/A") (JStr ""))).
  vm_compute. reflexivity.
Defined.

End Sessions.

(** ** The dictionary operations *)

Section DictTheory.

Implicit Types (items : list (Z * student)) (k : Z) (v : student).

Lemma max_default_ext (l1 l2 : list Z) (d : Z) :
  (∀ x, x ∈ l1 ↔ x ∈ l2) → App.max_default l1 d = App.max_default l2 d.
Proof.
  intros Hext. destruct l1 as [|a l1], l2 as [|b l2]; [done| | |].
  - exfalso. eapply not_elem_of_nil, Hext, list_elem_of_here.
  - exfalso. eapply not_elem_of_nil, Hext, list_elem_of_here.
  - assert (App.max_default (a :: l1) d ∈ b :: l2) as H1
      by (apply Hext, max_default_attained; done).
    assert (App.max_default (b :: l2) d ∈ a :: l1) as H2
      by (apply Hext, max_default_attained; done).
    apply (max_default_ub _ d) in H1, H2. lia.
Qed.

Lemma mapping_cons k v items : mapping ((k, v) :: items) = <[k := v]> (mapping items).
Proof. reflexivity. Qed.

Lemma Dict_get_mapping items k : Dict.get items k = mapping items !! k.
Proof.
  induction items as [|[k' v'] rest IH]; [done|].
  cbn [Dict.get]. rewrite mapping_cons. case_bool_decide as Hk.
  - subst. by rewrite lookup_insert_eq.
  - by rewrite lookup_insert_ne.
Qed.

Lemma Dict_set_mapping items k v :
  mapping (Dict.set items k v) = <[k := v]> (mapping items).
Proof.
  induction items as [|[k' v'] rest IH]; [done|].
  cbn [Dict.set]. case_bool_decide as Hk.
  - subst. by rewrite !mapping_cons, insert_insert_eq.
  - rewrite !mapping_cons, IH. by apply insert_insert_ne.
Qed.

Lemma elem_of_Dict_keys items k :
  k ∈ Dict.keys items ↔ is_Some (mapping items !! k).
Proof.
  unfold Dict.keys, mapping. rewrite <- not_eq_None_Some.
  rewrite <- not_elem_of_list_to_map. split; [tauto|].
  intros Hnn. by destruct (decide (k ∈ items.*1)).
Qed.

Lemma Dict_keys_mapping items x :
  x ∈ Dict.keys items ↔ x ∈ App.keys (mapping items).
Proof. by rewrite elem_of_Dict_keys, elem_of_keys. Qed.

Lemma Dict_del_mapping items k :
  NoDup (Dict.keys items) →
  mapping (Dict.del items k) = delete k (mapping items).
Proof.
  induction items as [|[k' v'] rest IH]; intros Hnd.
  - cbn. by rewrite delete_empty.
  - cbn in Hnd. apply NoDup_cons in Hnd as [Hnotin Hnd].
    cbn [Dict.del]. case_bool_decide as Hk.
    + subst. rewrite mapping_cons, delete_insert_eq.
      symmetry. apply delete_id. apply eq_None_not_Some.
      by rewrite <- elem_of_Dict_keys.
    + rewrite !mapping_cons, IH by done. by rewrite delete_insert_ne.
Qed.

(** A key that is new goes to the end. *)
Lemma Dict_set_fresh items k v :
  k ∉ Dict.keys items → Dict.set items k v = (items ++ [(k, v)])%list.
Proof.
  induction items as [|[k' v'] rest IH]; intros Hk; [done|].
  cbn in Hk. apply not_elem_of_cons in Hk as [Hne Hk].
  cbn [Dict.set]. rewrite bool_decide_eq_false_2 by done.
  by rewrite IH.
Qed.

(** A key that is present keeps its place. *)
Lemma Dict_set_keys_present items k v :
  k ∈ Dict.keys items → Dict.keys (Dict.set items k v) = Dict.keys items.
Proof.
  induction items as [|[k' v'] rest IH]; intros Hk.
  - by apply elem_of_nil in Hk.
  - cbn [Dict.set]. case_bool_decide as Hkk; [by subst|].
    cbn in Hk. apply elem_of_cons in Hk as [->|Hk]; [done|].
    unfold Dict.keys in *. cbn. by rewrite IH.
Qed.

Lemma Dict_set_Forall (P : Z * student → Prop) items k v :
  Forall P items → P (k, v) → Forall P (Dict.set items k v).
Proof.
  intros Hall Hkv. induction Hall as [|[k' v'] rest Hx Hrest IH]; cbn [Dict.set].
  - by constructor.
  - case_bool_decide; by constructor.
Qed.

Lemma filter_Forall_id {A} (P : A → Prop) `{!∀ x, Decision (P x)} (l : list A) :
  Forall P l → filter P l = l.
Proof.
  induction 1 as [|x l Hx _ IH]; [done|].
  by rewrite filter_cons_True, IH.
Qed.

(** Without repeated keys, [del] is the filter that drops the key. *)
Lemma Dict_del_filter items k :
  NoDup (Dict.keys items) →
  Dict.del items k = filter (λ kv, kv.1 ≠ k) items.
Proof.
  induction items as [|[k' v'] rest IH]; intros Hnd; [done|].
  cbn in Hnd. apply NoDup_cons in Hnd as [Hnotin Hnd].
  cbn [Dict.del]. case_bool_decide as Hk.
  - subst. rewrite filter_cons_False by (cbn; tauto).
    symmetry. apply filter_Forall_id. apply Forall_forall.
    intros [k'' v''] Hin Heq. cbn in Heq. subst. apply Hnotin.
    apply list_elem_of_fmap. by exists (k, v'').
  - rewrite filter_cons_True by done. by rewrite IH.
Qed.

Lemma Dict_del_keys_elem items k x :
  x ∈ Dict.keys (Dict.del items k) → x ∈ Dict.keys items.
Proof.
  induction items as [|[k' v'] rest IH]; [done|].
  cbn [Dict.del]. case_bool_decide; cbn.
  - by right.
  - intros [->|Hx]%elem_of_cons; [by left|]. right. by apply IH.
Qed.

Lemma Dict_del_sorted items k :
  StronglySorted Z.lt (Dict.keys items) →
  StronglySorted Z.lt (Dict.keys (Dict.del items k)).
Proof.
  induction items as [|[k' v'] rest IH]; [done|].
  cbn. intros [Hall Hrest]%StronglySorted_cons.
  case_bool_decide; [done|]. cbn.
  apply StronglySorted_cons. split; [|by apply IH].
  apply Forall_forall. intros x Hx%Dict_del_keys_elem.
  by apply (proj1 (Forall_forall _ _) Hall).
Qed.

Lemma Dict_del_Forall (P : Z * student → Prop) items k :
  Forall P items → Forall P (Dict.del items k).
Proof.
  induction 1 as [|[k' v'] rest Hx Hrest IH]; [done|].
  cbn [Dict.del]. case_bool_decide; [done|]. by constructor.
Qed.

Lemma sorted_keys_NoDup items :
  StronglySorted Z.lt (Dict.keys items) → NoDup (Dict.keys items).
Proof.
  unfold Dict.keys. induction (items.*1) as [|x l IH]; [constructor|].
  intros [Hall Hrest]%StronglySorted_cons. apply NoDup_cons. split; [|by apply IH].
  intros Hin. apply (proj1 (Forall_forall _ _) Hall) in Hin. lia.
Qed.

(** The id the ordered [create_student] computes is the one computed on
    the mapping, and it is no key. *)
Lemma Dict_max_key items :
  App.max_default (Dict.keys items) 0 = App.max_default (App.keys (mapping items)) 0.
Proof. apply max_default_ext, Dict_keys_mapping. Qed.

Lemma Dict_new_id_fresh items :
  App.max_default (Dict.keys items) 0 + 1 ∉ Dict.keys items.
Proof. intros Hin. apply (max_default_ub _ 0) in Hin. lia. Qed.

End DictTheory.

(** ** The ordered handlers and the handlers on the mapping *)

Section Refinement.

Implicit Types (items : list (Z * student)) (k : Z) (v : student).

Lemma Dict_set_NoDup items k v :
  NoDup (Dict.keys items) → NoDup (Dict.keys (Dict.set items k v)).
Proof.
  intros Hnd. destruct (decide (k ∈ Dict.keys items)) as [Hin|Hout].
  - by rewrite Dict_set_keys_present.
  - rewrite Dict_set_fresh by done. unfold Dict.keys in *.
    rewrite fmap_app. apply NoDup_app. split; [done|]. split.
    + intros x Hx [->|[]%elem_of_nil]%elem_of_cons. done.
    + apply NoDup_singleton.
Qed.

Lemma Dict_del_NoDup items k :
  NoDup (Dict.keys items) → NoDup (Dict.keys (Dict.del items k)).
Proof.
  induction items as [|[k' v'] rest IH]; [done|].
  cbn. intros [Hnotin Hnd]%NoDup_cons. case_bool_decide; [done|]. cbn.
  apply NoDup_cons. split; [|by apply IH].
  intros Hin%Dict_del_keys_elem. done.
Qed.

Lemma ordered_get_student items student_id :
  OrderedApp.get_student items student_id
  = App.get_student (mapping items) student_id.
Proof.
  unfold OrderedApp.get_student, App.get_student. by rewrite Dict_get_mapping.
Qed.

Lemma ordered_create_student items rjson :
  App.create_student (mapping items) rjson
  = (mapping (OrderedApp.create_student items rjson).1,
     (OrderedApp.create_student items rjson).2).
Proof.
  unfold App.create_student, OrderedApp.create_student.
  rewrite <- Dict_max_key.
  destruct (truthy rjson); cbn [negb]; [|done].
  destruct (App.contains_Name rjson) as [[|]|]; [|done..].
  destruct rjson; try done.
  destruct (d !! "Name"); [|done]. cbn [fst snd].
  by rewrite Dict_set_mapping.
Qed.

Lemma ordered_update_student items student_id rjson :
  App.update_student (mapping items) student_id rjson
  = (mapping (OrderedApp.update_student items student_id rjson).1,
     (OrderedApp.update_student items student_id rjson).2).
Proof.
  unfold App.update_student, OrderedApp.update_student.
  rewrite Dict_get_mapping.
  destruct (mapping items !! student_id); [|done].
  destruct (truthy rjson); cbn [negb]; [|done].
  destruct rjson; try done. cbn [fst snd].
  by rewrite Dict_set_mapping.
Qed.

Lemma ordered_delete_student items student_id :
  NoDup (Dict.keys items) →
  App.delete_student (mapping items) student_id
  = (mapping (OrderedApp.delete_student items student_id).1,
     (OrderedApp.delete_student items student_id).2).
Proof.
  intros Hnd. unfold App.delete_student, OrderedApp.delete_student.
  rewrite (bool_decide_ext _ _ (elem_of_Dict_keys items student_id)).
  case_bool_decide; [|done]. cbn [fst snd].
  by rewrite Dict_del_mapping.
Qed.

(** Each ordered handler either leaves the dictionary alone or applies
    one dictionary operation. *)
Lemma ordered_create_cases items rjson :
  (∃ code, OrderedApp.create_student items rjson = (items, Response code ErrorPage))
  ∨ (∃ st, OrderedApp.create_student items rjson
             = ((items ++ [(ID st, st)])%list, Response 201 (StudentJson st))
           ∧ ID st = App.max_default (Dict.keys items) 0 + 1).
Proof.
  unfold OrderedApp.create_student.
  destruct (truthy rjson); cbn [negb]; [|left; by eexists].
  destruct (App.contains_Name rjson) as [[|]|]; [|left; by eexists..].
  destruct rjson; try (left; by eexists).
  destruct (d !! "Name") as [name|]; [|left; by eexists].
  right.
  exists {| ID := App.max_default (Dict.keys items) 0 + 1;
            Name := name;
            Grade := App.dict_get d "Grade" (JStr "N/A");
            Email := App.dict_get d "Email" (JStr "") |}.
  split; [|done]. cbn [ID].
  by rewrite Dict_set_fresh by apply Dict_new_id_fresh.
Qed.

Lemma ordered_update_cases items student_id rjson :
  (∃ code, OrderedApp.update_student items student_id rjson
           = (items, Response code ErrorPage))
  ∨ (∃ st st', Dict.get items student_id = Some st
           ∧ OrderedApp.update_student items student_id rjson
             = (Dict.set items student_id st', Response 200 (StudentJson st'))
           ∧ ID st' = ID st).
Proof.
  unfold OrderedApp.update_student.
  destruct (Dict.get items student_id) as [st|]; [|left; by eexists].
  destruct (truthy rjson); cbn [negb]; [|left; by eexists].
  destruct rjson; try (left; by eexists).
  right. by eexists st, _.
Qed.

Lemma ordered_delete_cases items student_id :
  ((student_id ∉ Dict.keys items)
   ∧ OrderedApp.delete_student items student_id = (items, abort 404))
  ∨ (student_id ∈ Dict.keys items
     ∧ OrderedApp.delete_student items student_id
       = (Dict.del items student_id, Response 204 Empty)).
Proof.
  unfold OrderedApp.delete_student. case_bool_decide; [by right | by left].
Qed.

(** X14. The handlers on the mapping describe the handlers on the
    ordered dictionary: on a dictionary without repeated keys, a request
    gets the same response from both, the mapping of the dictionary it
    leaves is the store the mapping handlers leave, and that dictionary
    again has no repeated key. *)
Theorem ordered_handle_refines items r :
  NoDup (Dict.keys items) →
  handle (mapping items) r
  = (mapping (OrderedApp.handle items r).1, (OrderedApp.handle items r).2)
  ∧ NoDup (Dict.keys (OrderedApp.handle items r).1).
Proof.
  intros Hnd. destruct r as [student_id|p|student_id p|student_id];
    cbn [handle OrderedApp.handle].
  - split; [|done]. cbn [fst snd]. by rewrite ordered_get_student.
  - split; [apply ordered_create_student|].
    destruct (ordered_create_cases items (request_json p))
      as [(code & ->)|(st & -> & HID)]; [done|]. cbn [fst].
    rewrite <- (Dict_set_fresh items (ID st) st)
      by (rewrite HID; apply Dict_new_id_fresh).
    by apply Dict_set_NoDup.
  - split; [apply ordered_update_student|].
    destruct (ordered_update_cases items student_id (request_json p))
      as [(code & ->)|(st & st' & _ & -> & _)]; [done|].
    by apply Dict_set_NoDup.
  - split; [by apply ordered_delete_student|].
    destruct (ordered_delete_cases items student_id) as [[_ ->]|[_ ->]]; [done|].
    by apply Dict_del_NoDup.
Qed.

Lemma ordered_handle_refines_witness :
  handle Sample.two_students (DELETE_student 1)
  = (mapping [(2, Sample.bob)], Response 204 Empty).
Proof.
  assert (NoDup (Dict.keys [(1, Sample.alice); (2, Sample.bob)])) as Hnd.
  { apply NoDup_cons. split; [by intros [?|[]%elem_of_nil]%elem_of_cons|].
    apply NoDup_singleton. }
  destruct (ordered_handle_refines _ (DELETE_student 1) Hnd) as [Hsim _].
  assert (mapping [(1, Sample.alice); (2, Sample.bob)] = Sample.two_students)
    as Hmap by (vm_compute; reflexivity).
  rewrite Hmap in Hsim. rewrite Hsim. vm_compute. reflexivity.
Defined.

End Refinement.

(** ** The listing *)

Section Listing.

Implicit Types (items : list (Z * student)) (k : Z) (v : student).

Lemma listed_by_ID_values items :
  Forall (λ kv, ID kv.2 = kv.1) items →
  ID <$> Dict.values items = Dict.keys items.
Proof.
  unfold Dict.values, Dict.keys.
  induction 1 as [|[k v] rest Hkv _ IH]; [done|].
  cbn in *. by rewrite Hkv, IH.
Qed.

Lemma listed_by_ID_handle items r :
  listed_by_ID items → listed_by_ID (OrderedApp.handle items r).1.
Proof.
  intros [Hsorted Hall].
  destruct r as [student_id|p|student_id p|student_id]; cbn [OrderedApp.handle].
  - done.
  - destruct (ordered_create_cases items (request_json p))
      as [(code & ->)|(st & -> & HID)]; [done|]. cbn [fst]. split.
    + unfold Dict.keys in *. rewrite fmap_app. apply StronglySorted_app.
      split; [|split; [done|]].
      * intros x1 x2 Hx1 [->|[]%elem_of_nil]%elem_of_cons. cbn.
        apply (max_default_ub _ 0) in Hx1. lia.
      * repeat constructor.
    + apply Forall_app. split; [done|]. by repeat constructor.
  - destruct (ordered_update_cases items student_id (request_json p))
      as [(code & ->)|(st & st' & Hst & -> & HID)]; [done|]. cbn [fst].
    assert (mapping items !! student_id = Some st) as Hmap
      by (by rewrite <- Dict_get_mapping).
    assert (student_id ∈ Dict.keys items) as Hin
      by (apply elem_of_Dict_keys; by exists st).
    split.
    + by rewrite Dict_set_keys_present.
    + apply Dict_set_Forall; [done|]. cbn. rewrite HID.
      apply elem_of_list_to_map_2 in Hmap.
      by apply (proj1 (Forall_forall _ _) Hall (student_id, st)).
  - destruct (ordered_delete_cases items student_id) as [[_ ->]|[_ ->]]; [done|].
    cbn [fst]. split; [by apply Dict_del_sorted | by apply Dict_del_Forall].
Qed.

Lemma reachable_listed_by_ID items :
  OrderedApp.reachable items → listed_by_ID items.
Proof.
  induction 1 as [|items r _ IH].
  - split; constructor.
  - by apply listed_by_ID_handle.
Qed.

(** X15. Whatever requests were served since the start, [get_students]
    answers 200 and lists the records in strictly increasing order of
    their [ID]: the order in which the dictionary was filled is the order
    of the ids. *)
Theorem get_students_increasing_ID items :
  OrderedApp.reachable items →
  (OrderedApp.get_students items).2 = 200
  ∧ StronglySorted Z.lt (ID <$> (OrderedApp.get_students items).1).
Proof.
  intros [Hsorted Hall]%reachable_listed_by_ID. split; [done|].
  cbn [OrderedApp.get_students fst]. by rewrite listed_by_ID_values.
Qed.

Lemma get_students_increasing_ID_witness :
  StronglySorted Z.lt
    (ID <$> (OrderedApp.get_students
               (OrderedApp.handle
                  (OrderedApp.handle [] (POST_students (Json Sample.alice_body))).1
                  (POST_students (Json Sample.bob_body))).1).1).
Proof.
  apply get_students_increasing_ID.
  apply OrderedApp.reachable_step, OrderedApp.reachable_step,
    OrderedApp.reachable_init.
Defined.

(** X16. A POST whose JSON object has ['Name'] puts the new record at
    the end of the listing: [get_students] afterwards lists what it listed
    before, followed by the record the POST returned. *)
Theorem get_students_after_create items d name :
  d !! "Name" = Some name →
  ∃ items' st,
    OrderedApp.handle items (POST_students (Json (JDict d)))
      = (items', Response 201 (StudentJson st))
    ∧ (OrderedApp.get_students items').1
      = ((OrderedApp.get_students items).1 ++ [st])%list.
Proof.
  intros Hname. cbn [OrderedApp.handle request_json].
  destruct (ordered_create_cases items (JDict d))
    as [(code & Herr)|(st & Hok & _)].
  - exfalso. revert Herr. unfold OrderedApp.create_student.
    rewrite (truthy_dict_lookup _ _ _ Hname). cbn [negb App.contains_Name].
    rewrite bool_decide_eq_true_2 by (by rewrite Hname).
    rewrite Hname. discriminate.
  - rewrite Hok. eexists _, st. split; [reflexivity|].
    cbn [OrderedApp.get_students fst]. unfold Dict.values.
    by rewrite fmap_app.
Qed.

Lemma get_students_after_create_witness :
  ∃ items' st,
    OrderedApp.handle [(1, Sample.alice); (2, Sample.bob)]
      (POST_students (Json Sample.carl_body))
      = (items', Response 201 (StudentJson st))
    ∧ (OrderedApp.get_students items').1 = [Sample.alice; Sample.bob; st].
Proof.
  assert (({[ "Name" := JStr "Carl" ]} : gmap string json) !! "Name"
          = Some (JStr "Carl")) as Hname by (vm_compute; reflexivity).
  destruct (get_students_after_create [(1, Sample.alice); (2, Sample.bob)] _ _ Hname)
    as (items' & st & Hrun & Hlist).
  exists items', st. split; [exact Hrun|]. rewrite Hlist. reflexivity.
Defined.

(** X17. On a dictionary without repeated keys, the records
    [get_students] lists are exactly the records [get_student] returns
    for some id, and there are as many as the store has keys. *)
Theorem get_students_lists_the_store items :
  NoDup (Dict.keys items) →
  (∀ st, st ∈ (OrderedApp.get_students items).1
         ↔ ∃ student_id,
             OrderedApp.get_student items student_id
             = Response 200 (StudentJson st))
  ∧ length (OrderedApp.get_students items).1 = size (mapping items).
Proof.
  intros Hnd. cbn [OrderedApp.get_students fst]. unfold Dict.values. split.
  - intros st. rewrite list_elem_of_fmap. split.
    + intros ([k st'] & -> & Hin). exists k. cbn.
      unfold OrderedApp.get_student. rewrite Dict_get_mapping. unfold mapping.
      by rewrite (elem_of_list_to_map_1 _ _ _ Hnd Hin).
    + intros (k & Hget). unfold OrderedApp.get_student in Hget.
      rewrite Dict_get_mapping in Hget.
      destruct (mapping items !! k) as [st'|] eqn:Hk; [|discriminate].
      injection Hget as ->. exists (k, st). split; [done|].
      by apply elem_of_list_to_map_2.
  - rewrite length_fmap. symmetry. by apply map_size_list_to_map.
Qed.

Lemma get_students_lists_the_store_witness :
  Sample.bob ∈ (OrderedApp.get_students [(1, Sample.alice); (2, Sample.bob)]).1.
Proof.
  assert (NoDup (Dict.keys [(1, Sample.alice); (2, Sample.bob)])) as Hnd.
  { apply NoDup_cons. split; [by intros [?|[]%elem_of_nil]%elem_of_cons|].
    apply NoDup_singleton. }
  apply (proj1 (get_students_lists_the_store _ Hnd)).
  exists 2. reflexivity.
Defined.

(** X18. A PUT never moves a record in the listing: whatever the id and
    the body, the dictionary has the same keys in the same order
    afterwards, and the listing is as long as before. *)
Theorem update_student_keeps_order items student_id p :
  Dict.keys (OrderedApp.handle items (PUT_student student_id p)).1
  = Dict.keys items
  ∧ length (OrderedApp.get_students
              (OrderedApp.handle items (PUT_student student_id p)).1).1
    = length (OrderedApp.get_students items).1.
Proof.
  assert (Dict.keys (OrderedApp.handle items (PUT_student student_id p)).1
          = Dict.keys items) as Hkeys.
  { cbn [OrderedApp.handle].
    destruct (ordered_update_cases items student_id (request_json p))
      as [(code & ->)|(st & st' & Hst & -> & _)]; [done|]. cbn [fst].
    apply Dict_set_keys_present, elem_of_Dict_keys.
    rewrite <- Dict_get_mapping. by exists st. }
  split; [done|]. cbn [OrderedApp.get_students fst].
  unfold Dict.values, Dict.keys in *.
  apply (f_equal length) in Hkeys. by rewrite !length_fmap in *.
Qed.

(** X19. On a dictionary the service can hold, a DELETE takes the record
    with that [ID] out of the listing and keeps the others in their
    order; answered 404, it leaves the listing as it was. *)
Theorem get_students_after_delete items student_id :
  OrderedApp.reachable items →
  (OrderedApp.get_students
     (OrderedApp.handle items (DELETE_student student_id)).1).1
  = filter (λ st, ID st ≠ student_id) (OrderedApp.get_students items).1.
Proof.
  intros [Hsorted Hall]%reachable_listed_by_ID.
  pose proof (sorted_keys_NoDup _ Hsorted) as Hnd.
  cbn [OrderedApp.handle OrderedApp.get_students fst].
  assert (Dict.values (filter (λ kv, kv.1 ≠ student_id) items)
          = filter (λ st, ID st ≠ student_id) (Dict.values items)) as Hfilter.
  { clear Hsorted Hnd. unfold Dict.values.
    induction Hall as [|[k v] rest Hkv _ IH]; [done|]. cbn in Hkv.
    destruct (decide (k = student_id)) as [->|Hne].
    - rewrite filter_cons_False by (cbn; tauto). cbn [fmap list_fmap].
      rewrite filter_cons_False by (cbn; lia). done.
    - rewrite filter_cons_True by done. cbn [fmap list_fmap].
      rewrite filter_cons_True by (cbn; lia). cbn. by rewrite <- IH. }
  destruct (ordered_delete_cases items student_id) as [[Hout ->]|[_ ->]];
    cbn [fst].
  - rewrite <- Hfilter. f_equal. symmetry. apply filter_Forall_id.
    apply Forall_forall. intros [k v] Hin Heq. cbn in Heq. subst.
    apply Hout. apply list_elem_of_fmap. by exists (student_id, v).
  - by rewrite Dict_del_filter.
Qed.

Lemma get_students_after_delete_witness :
  (OrderedApp.get_students
     (OrderedApp.handle
        (OrderedApp.handle
           (OrderedApp.handle [] (POST_students (Json Sample.alice_body))).1
           (POST_students (Json Sample.bob_body))).1
        (DELETE_student 1)).1).1
  = [Sample.bob].
Proof.
  rewrite get_students_after_delete.
  - vm_compute. reflexivity.
  - apply OrderedApp.reachable_step, OrderedApp.reachable_step,
      OrderedApp.reachable_init.
Defined.

End Listing.
